(** * Credential service: shallow embedding of [main.py] and
      [generate_pepper.py], and the properties of the specification.

    Layout:
    - [Python]: the fragment of the Python run time the two files use
      (text as sequences of code points, exceptions, a state-and-exception
      monad for statements that mutate the world and may raise);
    - [Main]: [main.py] (pepper at import, Argon2id hasher, SQLite store,
      the two request handlers);
    - [GeneratePepper]: [generate_pepper.py] (the writers of [.env] and
      [.env.example]);
    - the theorems, one group per module. *)

From Stdlib Require Import String Ascii NArith List Lia Bool DecimalString.
From Stdlib Require Import ZifyBool.
From stdpp Require Import base option list gmap.

Import ListNotations.
Local Open Scope N_scope.

(* ===================================================================== *)
(** * The Python fragment                                                  *)
(* ===================================================================== *)

Module Python.

(** A Python [str] is a sequence of Unicode code points; [len] counts
    code points. *)
Abbreviation str := (list N).

(** Decoding of a UTF-8 byte sequence: the source files are UTF-8, and a
    literal of the source denotes the code points its bytes decode to. *)
Fixpoint utf8_decode (bs : list N) : str :=
  match bs with
  | [] => []
  | b0 :: t0 =>
    if b0 <? 128 then b0 :: utf8_decode t0
    else
      match t0 with
      | [] => [b0]
      | b1 :: t1 =>
        if b0 <? 224 then ((b0 - 192) * 64 + (b1 - 128)) :: utf8_decode t1
        else
          match t1 with
          | [] => [b0; b1]
          | b2 :: t2 =>
            if b0 <? 240
            then ((b0 - 224) * 4096 + (b1 - 128) * 64 + (b2 - 128))
                   :: utf8_decode t2
            else
              match t2 with
              | [] => [b0; b1; b2]
              | b3 :: t3 =>
                ((b0 - 240) * 262144 + (b1 - 128) * 4096
                 + (b2 - 128) * 64 + (b3 - 128)) :: utf8_decode t3
              end
          end
      end
  end.

(** [py "..."]: the [str] a literal of the source denotes. *)
Definition py (s : string) : str :=
  utf8_decode (map N_of_ascii (list_ascii_of_string s)).
Arguments py s : simpl never.

(** Truthiness of a [str]: [not s] holds of the empty string only. *)
Definition str_not (s : str) : bool :=
  match s with [] => true | _ :: _ => false end.

(** [s.startswith(prefix)] *)
Fixpoint startswith (s prefix : str) {struct prefix} : bool :=
  match prefix, s with
  | [], _ => true
  | p :: prefix', c :: s' => (c =? p) && startswith s' prefix'
  | _ :: _, [] => false
  end.

(** [c.isspace()]: the code points [str.strip()] removes. *)
Definition isspace (c : N) : bool :=
  ((9 <=? c) && (c <=? 13)) || ((28 <=? c) && (c <=? 32))
  || (c =? 133) || (c =? 160) || (c =? 5760)
  || ((8192 <=? c) && (c <=? 8202))
  || (c =? 8232) || (c =? 8233) || (c =? 8239) || (c =? 8287)
  || (c =? 12288).

Fixpoint lstrip (s : str) : str :=
  match s with
  | [] => []
  | c :: s' => if isspace c then lstrip s' else s
  end.

Definition rstrip (s : str) : str := rev (lstrip (rev s)).

(** [s.strip()] *)
Definition strip (s : str) : str := rstrip (lstrip s).

(** [s.split(sep)] for a one-character separator: never the empty list. *)
Fixpoint split (sep : N) (s : str) : list str :=
  match s with
  | [] => [[]]
  | c :: s' =>
    if c =? sep then [] :: split sep s'
    else
      match split sep s' with
      | l :: ls => (c :: l) :: ls
      | [] => [[c]]
      end
  end.

(** [sep.join(parts)] *)
Fixpoint join (sep : str) (parts : list str) : str :=
  match parts with
  | [] => []
  | [p] => p
  | p :: ps => p ++ sep ++ join sep ps
  end.

(** The exception classes the two files raise, catch or let through.
    All of them derive from [Exception]. *)
Inductive Exception : Type :=
| RuntimeError (msg : str)
| VerifyMismatchError
| InvalidHashError
| IntegrityError (msg : str)
| OperationalError (msg : str)
| HTTPException (status_code : N) (detail : str)
| OSError (msg : str)
| UnicodeDecodeError (msg : str)
| UnicodeEncodeError (msg : str).

(** [str(e)], as an f-string formats an exception. *)
Definition str_of_exception (e : Exception) : str :=
  match e with
  | RuntimeError msg | IntegrityError msg | OperationalError msg
  | OSError msg | UnicodeDecodeError msg | UnicodeEncodeError msg => msg
  | VerifyMismatchError => py "The password does not match the supplied hash"
  | InvalidHashError => py "Invalid hash"
  | HTTPException _ detail => detail
  end.

(** What evaluating a call gives: a value, or an exception in flight. *)
Inductive Result (A : Type) : Type :=
| Returns (a : A)
| Raises (e : Exception).
Arguments Returns {A} a.
Arguments Raises {A} e.

(** Statements over a world [W]: they read and change the world and
    either return or raise. *)
Definition M (W A : Type) : Type := W -> Result A * W.

Definition ret {W A} (a : A) : M W A := fun w => (Returns a, w).

Definition raise {W A} (e : Exception) : M W A := fun w => (Raises e, w).

Definition bind {W A B} (m : M W A) (k : A -> M W B) : M W B :=
  fun w =>
    match m w with
    | (Returns a, w') => k a w'
    | (Raises e, w') => (Raises e, w')
    end.

(** [try: body  except <classes>: handler]. [handler e] is [None] when
    no [except] clause matches [e], which then stays in flight. *)
Definition try_except {W A} (body : M W A)
           (handler : Exception -> option (M W A)) : M W A :=
  fun w =>
    match body w with
    | (Returns a, w') => (Returns a, w')
    | (Raises e, w') =>
      match handler e with
      | Some h => h w'
      | None => (Raises e, w')
      end
    end.

(** [try: body  finally: cleanup] *)
Definition try_finally {W A} (body : M W A) (cleanup : M W unit) : M W A :=
  fun w =>
    match body w with
    | (r, w') =>
      match cleanup w' with
      | (Returns _, w'') => (r, w'')
      | (Raises e, w'') => (Raises e, w'')
      end
    end.

Definition get {W} : M W W := fun w => (Returns w, w).
Definition modify {W} (f : W -> W) : M W unit := fun w => (Returns tt, f w).

Declare Scope py_scope.
Delimit Scope py_scope with py.
Notation "x <- m ;; k" := (bind m (fun x => k))
  (at level 100, m at next level, right associativity) : py_scope.
Notation "m ;;; k" := (bind m (fun _ => k))
  (at level 100, right associativity) : py_scope.

End Python.

(* ===================================================================== *)
(** * main.py                                                              *)
(* ===================================================================== *)

Module Main.
Import Python.
Local Open Scope py_scope.

(** ** The libraries [main.py] calls *)

(** [argon2.PasswordHasher]: the cost parameters of an instance. *)
Record PasswordHasher : Type := {
  time_cost : N;
  memory_cost : N;
  parallelism : N;
  hash_len : N;
  salt_len : N
}.

(** What an encoded Argon2 hash string carries: the cost parameters, the
    salt and the digest. *)
Record EncodedHash : Type := {
  eh_time_cost : N;
  eh_memory_cost : N;
  eh_parallelism : N;
  eh_hash_len : N;
  eh_salt : list N;
  eh_digest : list N
}.

(** The parts of the libraries that are not modelled further: the raw
    Argon2id function, the text codec of the hash strings and the
    operating system's entropy ([os.urandom]: the bytes of the [n]-th
    draw of the run, of the requested size). *)
Class Libs : Type := {
  argon2id :
    N (* time_cost *) -> N (* memory_cost *) -> N (* parallelism *) ->
    N (* hash_len *) -> list N (* salt *) -> str (* secret *) -> list N;
  encode : EncodedHash -> str;
  decode : str -> option EncodedHash;
  os_urandom : nat -> N -> list N
}.

(** The table [users] of [users.db]. *)
Module users.
Record row : Type := {
  id : N;
  username : str;
  password_hash : str
}.
End users.

(** The database file: the rows of [users], or [None] while the table
    has not been created. *)
Abbreviation Database := (option (list users.row)).

Inductive Statement : Type :=
| CREATE_TABLE_IF_NOT_EXISTS_users
| INSERT_INTO_users (username password_hash : str)
| SELECT_password_hash_FROM_users (username : str).

(** What the process does to the outside, in order. *)
Inductive Event : Type :=
| EvUrandom (size : N)
| EvConnect
| EvExecute (sql : Statement)
| EvCommit
| EvClose.

Record World : Type := {
  disk : Database;     (* the committed content of users.db *)
  draws : nat;         (* number of os.urandom draws so far *)
  log : list Event     (* most recent first *)
}.

Definition emit (ev : Event) : M World unit :=
  modify (fun w => {| disk := disk w; draws := draws w; log := ev :: log w |}).

(** [PasswordHasher.hash]: a fresh salt of [salt_len] bytes, the digest
    of the secret under it, both encoded with the parameters. *)
Definition PasswordHasher_hash `{Libs} (self : PasswordHasher) (password : str)
  : M World str :=
  w <- get ;;
  let salt := os_urandom (draws w) (salt_len self) in
  modify (fun w => {| disk := disk w; draws := S (draws w); log := log w |}) ;;;
  emit (EvUrandom (salt_len self)) ;;;
  ret (encode {|
    eh_time_cost := time_cost self;
    eh_memory_cost := memory_cost self;
    eh_parallelism := parallelism self;
    eh_hash_len := hash_len self;
    eh_salt := salt;
    eh_digest := argon2id (time_cost self) (memory_cost self)
                   (parallelism self) (hash_len self) salt password
  |}).

(** [PasswordHasher.verify]: [True], or [VerifyMismatchError] when the
    digest recomputed from the embedded parameters and salt differs, or
    [InvalidHashError] when the string is no encoded hash. *)
Definition PasswordHasher_verify `{Libs} (self : PasswordHasher)
           (hash password : str) : M World bool :=
  match decode hash with
  | None => raise InvalidHashError
  | Some eh =>
    if bool_decide
         (argon2id (eh_time_cost eh) (eh_memory_cost eh) (eh_parallelism eh)
            (eh_hash_len eh) (eh_salt eh) password = eh_digest eh)
    then ret true
    else raise VerifyMismatchError
  end.

(** [sqlite3]: a connection works on its own view of the database;
    [commit] makes the view durable, [close] drops what is uncommitted. *)
Record Connection : Type := { view : Database }.

(** [sqlite3.connect(database)]: the world holds one database file,
    [users.db]. *)
Definition sqlite3_connect (database : str) : M World Connection :=
  w <- get ;;
  emit EvConnect ;;;
  ret {| view := disk w |}.

(** The [id] an [INTEGER PRIMARY KEY AUTOINCREMENT] column gives a new
    row of a table no row was ever deleted from. *)
Definition next_id (rows : list users.row) : N :=
  fold_right N.max 0 (map users.id rows) + 1.

(** [cur.execute(sql)]: the connection after the statement and the rows
    it yields (one column each here). [username] is [UNIQUE]: an [INSERT]
    of a username the table has raises [IntegrityError] and changes
    nothing. ([NOT NULL] never fails: a Python [str] is bound.) *)
Definition execute (conn : Connection) (sql : Statement)
  : M World (Connection * list str) :=
  emit (EvExecute sql) ;;;
  match sql with
  | CREATE_TABLE_IF_NOT_EXISTS_users =>
    match view conn with
    | None => ret ({| view := Some [] |}, [])
    | Some _ => ret (conn, [])
    end
  | INSERT_INTO_users username password_hash =>
    match view conn with
    | None => raise (OperationalError (py "no such table: users"))
    | Some rows =>
      if existsb (fun r => bool_decide (users.username r = username)) rows
      then raise (IntegrityError (py "UNIQUE constraint failed: users.username"))
      else ret ({| view := Some (rows ++ [{|
                     users.id := next_id rows;
                     users.username := username;
                     users.password_hash := password_hash |}]) |}, [])
    end
  | SELECT_password_hash_FROM_users username =>
    match view conn with
    | None => raise (OperationalError (py "no such table: users"))
    | Some rows =>
      ret (conn,
           map users.password_hash
             (List.filter (fun r => bool_decide (users.username r = username)) rows))
    end
  end.

(** [cur.fetchone()] *)
Definition fetchone (rows : list str) : option str := head rows.

Definition commit (conn : Connection) : M World unit :=
  emit EvCommit ;;;
  modify (fun w => {| disk := view conn; draws := draws w; log := log w |}).

Definition close (conn : Connection) : M World unit := emit EvClose.

(** [os.environ] after [load_dotenv()]: the entries of the [.env] file
    are added, those already in the environment are kept. *)
Definition load_dotenv (dotenv environ : gmap str str) : gmap str str :=
  environ ∪ dotenv.

(** [os.getenv(key, default)] *)
Definition os_getenv (environ : gmap str str) (key default : str) : str :=
  match environ !! key with
  | Some v => v
  | None => default
  end.

(** FastAPI's [status] constants. *)
Definition HTTP_200_OK : N := 200.
Definition HTTP_201_CREATED : N := 201.
Definition HTTP_400_BAD_REQUEST : N := 400.
Definition HTTP_401_UNAUTHORIZED : N := 401.
Definition HTTP_404_NOT_FOUND : N := 404.
Definition HTTP_500_INTERNAL_SERVER_ERROR : N := 500.

(** ** The source *)

Definition DB_PATH : str := py "users.db".

(** Module-level state: [PEPPER], bound once when the module is imported. *)
Record Globals : Type := { PEPPER : str }.

(** Lines 17-20: the module-level code that reads the pepper. Importing
    [main] either binds the globals or raises. *)
Definition import_main (dotenv environ : gmap str str) : Result Globals :=
  let environ := load_dotenv dotenv environ in
  let pepper := os_getenv environ (py "APP_PEPPER") (py "") in
  if str_not pepper
  then Raises (RuntimeError (py "APP_PEPPER no está configurado"))
  else Returns {| PEPPER := pepper |}.

(** Lines 23-29. *)
Definition ph : PasswordHasher := {|
  time_cost := 3;
  memory_cost := 64000;
  parallelism := 4;
  hash_len := 32;
  salt_len := 16
|}.

Module UserCreate.
Record t : Type := { username : str; password : str }.
End UserCreate.

Module UserLogin.
Record t : Type := { username : str; password : str }.
End UserLogin.

Record MessageResponse : Type := { message : str }.

Definition get_connection : M World Connection := sqlite3_connect DB_PATH.

Definition init_db : M World unit :=
  conn <- get_connection ;;
  r <- execute conn CREATE_TABLE_IF_NOT_EXISTS_users ;;
  commit (fst r) ;;;
  close (fst r).

Definition hash_password `{Libs} (g : Globals) (plain_password : str)
  : M World str :=
  let value := plain_password ++ PEPPER g in
  PasswordHasher_hash ph value.

Definition verify_password `{Libs} (g : Globals)
           (plain_password stored_hash : str) : M World bool :=
  let value := plain_password ++ PEPPER g in
  try_except
    (PasswordHasher_verify ph stored_hash value ;;;
     ret true)
    (fun e =>
       match e with
       | VerifyMismatchError => Some (ret false)
       | _ => None
       end).

Definition get_user_hash (username : str) : M World (option str) :=
  conn <- get_connection ;;
  r <- execute conn (SELECT_password_hash_FROM_users username) ;;
  let row := fetchone (snd r) in
  close (fst r) ;;;
  ret row.

Definition create_user (username password_hash : str) : M World unit :=
  conn <- get_connection ;;
  try_finally
    (try_except
       (r <- execute conn (INSERT_INTO_users username password_hash) ;;
        commit (fst r))
       (fun e =>
          match e with
          | IntegrityError _ => Some (raise e)
          | _ => None
          end))
    (close conn).

Definition on_startup : M World unit := init_db.

Definition register `{Libs} (g : Globals) (user : UserCreate.t)
  : M World MessageResponse :=
  if (length (UserCreate.password user) <=? 7)%nat
  then raise (HTTPException HTTP_400_BAD_REQUEST
                (py "La contraseña debe tener más de 7 caracteres."))
  else
    password_hash <- hash_password g (UserCreate.password user) ;;
    try_except
      (create_user (UserCreate.username user) password_hash)
      (fun e =>
         match e with
         | IntegrityError _ =>
           Some (raise (HTTPException HTTP_400_BAD_REQUEST
                          (py "El usuario ya existe.")))
         | _ => None
         end) ;;;
    ret {| message := py "Usuario registrado correctamente." |}.

Definition login `{Libs} (g : Globals) (user : UserLogin.t)
  : M World MessageResponse :=
  stored_hash <- get_user_hash (UserLogin.username user) ;;
  match stored_hash with
  | Some ((_ :: _) as stored_hash) =>
    ok <- verify_password g (UserLogin.password user) stored_hash ;;
    if negb ok
    then raise (HTTPException HTTP_401_UNAUTHORIZED (py "Credenciales inválidas."))
    else ret {| message := py "Inicio de sesión exitoso." |}
  | None | Some [] =>
    (* [not stored_hash]: holds of [None] and of the empty string *)
    raise (HTTPException HTTP_404_NOT_FOUND (py "Usuario no encontrado."))
  end.

(** ** The process

    The server imports [main] (which runs the module-level code), runs
    the startup event, and then serves requests one at a time. A process
    whose import or startup raised serves nothing. *)

Inductive Request : Type :=
| POST_register (user : UserCreate.t)
| POST_login (user : UserLogin.t).

Definition route `{Libs} (g : Globals) (req : Request) : M World MessageResponse :=
  match req with
  | POST_register user => register g user
  | POST_login user => login g user
  end.

Inductive Process : Type :=
| Exited (e : Exception)
| Serving (g : Globals).

Definition start (dotenv environ : gmap str str) (w : World) : Process * World :=
  match import_main dotenv environ with
  | Raises e => (Exited e, w)
  | Returns g =>
    match on_startup w with
    | (Returns _, w') => (Serving g, w')
    | (Raises e, w') => (Exited e, w')
    end
  end.

(** The status code of a route's decorator, sent when the handler returns. *)
Definition status_code (req : Request) : N :=
  match req with
  | POST_register _ => HTTP_201_CREATED
  | POST_login _ => HTTP_200_OK
  end.

(** The HTTP response FastAPI makes of a handler's result: the message
    under the route's status code, the detail of an [HTTPException] under
    its own, and an internal server error for any other exception. *)
Definition http_response (req : Request) (r : Result MessageResponse) : N * str :=
  match r with
  | Returns m => (status_code req, message m)
  | Raises (HTTPException status detail) => (status, detail)
  | Raises _ => (HTTP_500_INTERNAL_SERVER_ERROR, py "Internal Server Error")
  end.

(** The answer to one request: the response to the handler's result, or
    nothing at all from a process that is not serving. *)
Definition serve `{Libs} (p : Process) (req : Request) (w : World)
  : option (N * str) * World :=
  match p with
  | Exited _ => (None, w)
  | Serving g => let (r, w') := route g req w in (Some (http_response req r), w')
  end.

(** The world after a sequence of requests. *)
Fixpoint serve_all `{Libs} (p : Process) (reqs : list Request) (w : World) : World :=
  match reqs with
  | [] => w
  | req :: reqs' => serve_all p reqs' (snd (serve p req w))
  end.

End Main.

(* ===================================================================== *)
(** * generate_pepper.py                                                   *)
(* ===================================================================== *)

Module GeneratePepper.
Import Python.
Local Open Scope py_scope.

(** ** The file system and the console *)

Definition LF : N := 10.
Definition CR : N := 13.

(** The operations on files the two writers perform, each at most once
    in a call. *)
Inductive FileOp : Type :=
| OpExists
| OpOpenRead
| OpRead
| OpCloseRead
| OpOpenWrite
| OpWrite
| OpCloseWrite.

Record World : Type := {
  fs : gmap str str;                    (* regular files: path to text *)
  stdout : list str;                    (* printed lines, most recent first *)
  fault : FileOp -> option Exception;   (* the operations that fail, and how *)
  partial : nat                         (* characters a failing write leaves *)
}.

Definition set_fs (f : gmap str str -> gmap str str) : M World unit :=
  modify (fun w => {| fs := f (fs w); stdout := stdout w;
                      fault := fault w; partial := partial w |}).

Definition print (line : str) : M World unit :=
  modify (fun w => {| fs := fs w; stdout := line :: stdout w;
                      fault := fault w; partial := partial w |}).

(** The operation raises what the world has in store for it, if anything. *)
Definition io (op : FileOp) : M World unit :=
  w <- get ;;
  match fault w op with
  | Some e => raise e
  | None => ret tt
  end.

(** [Path(path).exists()] *)
Definition Path_exists (path : str) : M World bool :=
  io OpExists ;;;
  w <- get ;;
  ret (bool_decide (is_Some (fs w !! path))).

(** Text mode reads translate every line ending to a line feed. *)
Fixpoint universal_newlines (s : str) : str :=
  match s with
  | [] => []
  | c :: s' =>
    if c =? CR then
      match s' with
      | d :: s'' => if d =? LF then LF :: universal_newlines s''
                    else LF :: universal_newlines s'
      | [] => [LF]
      end
    else c :: universal_newlines s'
  end.

(** [open(path, "r", encoding="utf-8")]: the handle is the path. *)
Definition open_r (path : str) : M World str :=
  io OpOpenRead ;;;
  w <- get ;;
  match fs w !! path with
  | None => raise (OSError (py "[Errno 2] No such file or directory"))
  | Some _ => ret path
  end.

(** [f.read()] *)
Definition read (f : str) : M World str :=
  io OpRead ;;;
  w <- get ;;
  ret (universal_newlines (default [] (fs w !! f))).

(** [open(path, "w", encoding="utf-8")]: creates or truncates the file. *)
Definition open_w (path : str) : M World str :=
  io OpOpenWrite ;;;
  set_fs (<[path := []]>) ;;;
  ret path.

(** [f.write(data)]: appends to what the file holds since it was opened;
    a failing write leaves a prefix of the data behind. *)
Definition write (f data : str) : M World unit :=
  w <- get ;;
  let old := default [] (fs w !! f) in
  match fault w OpWrite with
  | Some e => set_fs (<[f := old ++ take (partial w) data]>) ;;; raise e
  | None => set_fs (<[f := old ++ data]>)
  end.

(** [with open_ as f: body]: the file is closed however the body ends. *)
Definition with_open {A} (open_ : M World str) (close_op : FileOp)
           (body : str -> M World A) : M World A :=
  f <- open_ ;;
  try_finally (body f) (io close_op).

(** ** The source *)

Definition create_env_file (pepper env_path : str) : M World bool :=
  try_except
    (let env_file := env_path in
     exists_ <- Path_exists env_file ;;
     existing_content <-
       (if exists_
        then with_open (open_r env_file) OpCloseRead (fun f => read f)
        else ret []) ;;
     let lines :=
       if str_not (strip existing_content) then []
       else split LF (strip existing_content) in
     let lines :=
       List.filter (fun line => negb (startswith line (py "APP_PEPPER="))) lines in
     let lines := lines ++ [py "APP_PEPPER=" ++ pepper] in
     with_open (open_w env_file) OpCloseWrite
       (fun f => write f (join [LF] lines ++ [LF])) ;;;
     ret true)
    (fun e =>
       Some (print (py "❌ Error al crear/actualizar .env: " ++ str_of_exception e) ;;;
             ret false)).



(** ** The random token *)

(** [secrets.token_bytes(nbytes)]: [nbytes] bytes of the system's random
    source, of which [random i] is the [i]-th value it yields. *)
Definition token_bytes (random : nat -> N) (nbytes : nat) : list N :=
  map (fun i => random i mod 256) (seq 0 nbytes).

(** The URL-safe Base64 alphabet. *)
Definition urlsafe_alphabet : str :=
  py "ABCDEFGHIJKLMNOPQRSTUVWXYZabcdefghijklmnopqrstuvwxyz0123456789-_".

Definition b64_char (i : N) : N := nth (N.to_nat i) urlsafe_alphabet 0.

(** The padding character [=]. *)
Definition b64_pad : N := 61.

(** [base64.urlsafe_b64encode(bs)]: four characters for every three
    bytes, the last group padded with [=]. *)
Fixpoint urlsafe_b64encode (bs : list N) : str :=
  match bs with
  | [] => []
  | [a] => [b64_char (a / 4); b64_char (a mod 4 * 16); b64_pad; b64_pad]
  | [a; b] =>
    [b64_char (a / 4); b64_char (a mod 4 * 16 + b / 16);
     b64_char (b mod 16 * 4); b64_pad]
  | a :: b :: c :: rest =>
    b64_char (a / 4) :: b64_char (a mod 4 * 16 + b / 16)
      :: b64_char (b mod 16 * 4 + c / 64) :: b64_char (c mod 64)
      :: urlsafe_b64encode rest
  end.

Fixpoint lstrip_char (c : N) (s : str) : str :=
  match s with
  | [] => []
  | d :: s' => if d =? c then lstrip_char c s' else s
  end.

(** [s.rstrip(c)] for a one-character set. *)
Definition rstrip_char (c : N) (s : str) : str := rev (lstrip_char c (rev s)).

(** [secrets.token_urlsafe(nbytes)] *)
Definition token_urlsafe (random : nat -> N) (nbytes : nat) : str :=
  let tok := token_bytes random nbytes in
  rstrip_char b64_pad (urlsafe_b64encode tok).

Definition generate_pepper (random : nat -> N) (length : nat) : str :=
  token_urlsafe random length.

(** ** The script *)





End GeneratePepper.

(* ===================================================================== *)
(** * An instance of the libraries' interface                              *)
(* ===================================================================== *)

(** A small executable instance of [Main.Libs], on which the model runs on
    concrete inputs: the digest is the secret followed by the salt and the
    cost parameters, a hash string lists the parameters, the length of the
    salt, the salt and the digest, and the [n]-th entropy draw repeats the
    byte [n mod 256]. *)
Module Sample.
Import Python Main.

Definition sample_argon2id (t m p hl : N) (salt : list N) (secret : str) : list N :=
  secret ++ salt ++ [t; m; p; hl].

Definition sample_encode (eh : EncodedHash) : str :=
  [eh_time_cost eh; eh_memory_cost eh; eh_parallelism eh; eh_hash_len eh;
   N.of_nat (length (eh_salt eh))] ++ eh_salt eh ++ eh_digest eh.

Definition sample_decode (s : str) : option EncodedHash :=
  match s with
  | t :: m :: p :: hl :: n :: rest =>
    if (N.to_nat n <=? length rest)%nat
    then Some {| eh_time_cost := t; eh_memory_cost := m; eh_parallelism := p;
                 eh_hash_len := hl;
                 eh_salt := take (N.to_nat n) rest;
                 eh_digest := drop (N.to_nat n) rest |}
    else None
  | _ => None
  end.

Definition sample_urandom (n : nat) (size : N) : list N :=
  repeat (N.of_nat n mod 256) (N.to_nat size).

#[export] Instance libs : Libs := {|
  argon2id := sample_argon2id;
  encode := sample_encode;
  decode := sample_decode;
  os_urandom := sample_urandom
|}.

(** A database file in which the table exists and is empty, nothing
    drawn, nothing logged. *)
Definition fresh : Main.World :=
  {| disk := Some []; draws := 0; log := [] |}.

Definition g0 : Globals := {| PEPPER := py "pepper" |}.

Definition alice : UserCreate.t :=
  {| UserCreate.username := py "alice"; UserCreate.password := py "longpassword1" |}.

Definition alice_again : UserCreate.t :=
  {| UserCreate.username := py "alice"; UserCreate.password := py "other12345" |}.

Definition alice_login : UserLogin.t :=
  {| UserLogin.username := py "alice"; UserLogin.password := py "longpassword1" |}.

Definition nameless : UserCreate.t :=
  {| UserCreate.username := py ""; UserCreate.password := py "12345678" |}.

Definition bob : UserCreate.t :=
  {| UserCreate.username := py "bob"; UserCreate.password := py "hunter2hunter2" |}.



(** The world once [alice] has registered, and the rows of its table. *)
Definition after_alice : Main.World := snd (register g0 alice fresh).

Definition rows_after_alice : list users.row := default [] (disk after_alice).

End Sample.

(** Worlds of [generate_pepper.py] to run the writers in. *)
Module SampleFiles.
Import Python GeneratePepper.

Definition dotenv_path : str := py ".env".

(** Nothing fails. *)
Definition quiet (files : gmap str str) : World :=
  {| fs := files; stdout := []; fault := fun _ => None; partial := 0 |}.

(** The device fills up: a write fails after three characters. *)
Definition disk_full (files : gmap str str) : World :=
  {| fs := files; stdout := [];
     fault := fun op =>
                match op with
                | OpWrite => Some (OSError (py "[Errno 28] No space left on device"))
                | _ => None
                end;
     partial := 3 |}.

Definition two_settings : str := py "FOO=1" ++ [LF] ++ py "BAR=2" ++ [LF].



Definition indented_setting : str := py "  FOO=1" ++ [LF].

End SampleFiles.

(* ===================================================================== *)
(** * Vocabulary of the properties                                         *)
(* ===================================================================== *)

Module MainSpec.
Import Python Main.

(** The hash string [hash_password] returns when the salt drawn is [salt]. *)
Definition hash_string `{Libs} (g : Globals) (plain_password : str) (salt : list N)
  : str :=
  encode {|
    eh_time_cost := 3; eh_memory_cost := 64000; eh_parallelism := 4;
    eh_hash_len := 32; eh_salt := salt;
    eh_digest := argon2id 3 64000 4 32 salt (plain_password ++ PEPPER g)
  |}.

(** The salt the next call of [hash_password] draws in world [w]. *)
Definition next_salt `{Libs} (w : World) : list N :=
  os_urandom (draws w) (salt_len ph).

(** Whether the digest of [plain_password] (with the pepper), recomputed
    under the parameters and salt of [eh], is the digest of [eh]. *)
Definition digest_matches `{Libs} (g : Globals) (plain_password : str)
           (eh : EncodedHash) : bool :=
  bool_decide
    (argon2id (eh_time_cost eh) (eh_memory_cost eh) (eh_parallelism eh)
       (eh_hash_len eh) (eh_salt eh) (plain_password ++ PEPPER g)
     = eh_digest eh).

(** The world with further events logged. *)
Definition logged (evs : list Event) (w : World) : World :=
  {| disk := disk w; draws := draws w; log := evs ++ log w |}.

(** Uniqueness of the stored usernames. *)
Definition unique_usernames (db : Database) : Prop :=
  match db with
  | None => True
  | Some rows => NoDup (map users.username rows)
  end.

(** The rows a [SELECT ... WHERE username = ?] matches. *)
Definition matching (username : str) (rows : list users.row) : list users.row :=
  List.filter (fun r => bool_decide (users.username r = username)) rows.

(** The primary keys of the stored rows are distinct. *)
Definition unique_ids (db : Database) : Prop :=
  match db with
  | None => True
  | Some rows => NoDup (map users.id rows)
  end.

(** The login request that carries the credentials of a registration. *)
Definition credentials (user : UserCreate.t) : UserLogin.t :=
  {| UserLogin.username := UserCreate.username user;
     UserLogin.password := UserCreate.password user |}.

(** The login request of the same user with another password. *)
Definition with_password (user : UserCreate.t) (password : str) : UserLogin.t :=
  {| UserLogin.username := UserCreate.username user;
     UserLogin.password := password |}.

(** The Argon2id digest of a password under the pepper of [g], the cost
    parameters of [ph] and a salt. *)
Definition peppered_digest `{Libs} (g : Globals) (salt : list N) (password : str)
  : list N :=
  argon2id 3 64000 4 32 salt (password ++ PEPPER g).

End MainSpec.

Module GeneratePepperSpec.
Import Python GeneratePepper.

(** No file operation fails in this world. *)
Definition no_faults (w : World) : Prop := forall op : FileOp, fault w op = None.

(** The text [create_env_file] reads from [env_path]: empty when there is
    no such file. *)
Definition existing_content (env_path : str) (w : World) : str :=
  match fs w !! env_path with
  | Some text => universal_newlines text
  | None => []
  end.

(** The lines of a text that has been stripped: none for the empty text. *)
Definition lines_of (stripped : str) : list str :=
  if str_not stripped then [] else split LF stripped.

Definition is_pepper_entry (line : str) : bool :=
  startswith line (py "APP_PEPPER=").

(** The world with the file at [path] replaced. *)
Definition with_file (path text : str) (w : World) : World :=
  {| fs := <[path := text]> (fs w); stdout := stdout w;
     fault := fault w; partial := partial w |}.



(** The lines [create_env_file] keeps of the text it read. *)
Definition kept_lines (existing : str) : list str :=
  List.filter (fun line => negb (is_pepper_entry line)) (lines_of (strip existing)).

(** The text [create_env_file] puts in the file when nothing fails. *)
Definition rewritten (pepper existing : str) : str :=
  join [LF] (kept_lines existing ++ [py "APP_PEPPER=" ++ pepper]) ++ [LF].


(** Letters, digits, [-] and [_]. *)
Definition is_urlsafe (c : N) : bool :=
  ((65 <=? c) && (c <=? 90)) || ((97 <=? c) && (c <=? 122))
  || ((48 <=? c) && (c <=? 57)) || (c =? 45) || (c =? 95).

(** The first of the lines, if any, starts with a character that is not
    white space. *)
Definition starts_flush (ls : list str) : Prop :=
  match ls with
  | [] => True
  | [] :: _ => False
  | (c :: _) :: _ => isspace c = false
  end.

(** The lines, each followed by a line feed. *)
Definition flat (ls : list str) : str := concat (map (fun l => l ++ [LF]) ls).



End GeneratePepperSpec.

(* ===================================================================== *)
(** * Properties of main.py                                                *)
(* ===================================================================== *)

Module MainProps.
Import Python Main MainSpec.
Local Open Scope py_scope.

Ltac run :=
  unfold bind, ret, raise, try_except, try_finally, get, modify, emit; simpl.

Section Hasher.
Context {L : Libs}.

Lemma hash_password_run (g : Globals) (p : str) (w : World) :
  hash_password g p w =
  (Returns (hash_string g p (next_salt w)),
   {| disk := disk w; draws := S (draws w); log := EvUrandom 16 :: log w |}).
Proof. reflexivity. Qed.

Lemma verify_password_run (g : Globals) (p h : str) (w : World) :
  verify_password g p h w =
  (match decode h with
   | None => Raises InvalidHashError
   | Some eh => Returns (digest_matches g p eh)
   end, w).
Proof.
  unfold verify_password, PasswordHasher_verify, digest_matches.
  destruct (decode h) as [eh|]; run; [|reflexivity].
  destruct (bool_decide _); reflexivity.
Qed.


Section Codec.
Hypothesis decode_encode : forall eh : EncodedHash, decode (encode eh) = Some eh.





End Codec.


(** ** The store *)

Lemma existsb_matching (u : str) (rows : list users.row) :
  existsb (fun r => bool_decide (users.username r = u)) rows = true
  <-> u ∈ map users.username rows.
Proof.
  induction rows as [|r rows IH]; simpl.
  - split; [discriminate|]. intros H. inversion H.
  - rewrite orb_true_iff, IH, bool_decide_eq_true, elem_of_cons.
    split; intros [H|H]; auto.
Qed.

Lemma matching_absent (u : str) (rows : list users.row) :
  u ∉ map users.username rows -> matching u rows = [].
Proof.
  induction rows as [|r rows IH]; simpl; [reflexivity|].
  rewrite not_elem_of_cons. intros [Hne Hnot].
  rewrite bool_decide_eq_false_2 by congruence. auto.
Qed.

Lemma matching_unique (r : users.row) (rows : list users.row) :
  NoDup (map users.username rows) -> r ∈ rows ->
  matching (users.username r) rows = [r].
Proof.
  induction rows as [|r' rows IH]; simpl; intros Hnd Hin.
  - inversion Hin.
  - apply NoDup_cons in Hnd as [Hnot Hnd].
    apply elem_of_cons in Hin as [->|Hin].
    + rewrite bool_decide_eq_true_2 by reflexivity.
      f_equal. apply matching_absent. exact Hnot.
    + rewrite bool_decide_eq_false_2; [auto|].
      intros E. apply Hnot. rewrite E.
      clear -Hin. induction Hin; simpl; [left|right]; auto.
Qed.

Lemma get_user_hash_run (u : str) (w : World) (rows : list users.row) :
  disk w = Some rows ->
  get_user_hash u w =
  (Returns (fetchone (map users.password_hash (matching u rows))),
   logged [EvClose; EvExecute (SELECT_password_hash_FROM_users u); EvConnect] w).
Proof.
  destruct w as [d n l]; simpl. intros ->. reflexivity.
Qed.

Lemma init_db_run (w : World) :
  init_db w =
  (Returns tt,
   {| disk := Some (default [] (disk w)); draws := draws w;
      log := EvClose :: EvCommit :: EvExecute CREATE_TABLE_IF_NOT_EXISTS_users
               :: EvConnect :: log w |}).
Proof.
  destruct w as [[rows|] n l]; reflexivity.
Qed.

(** What [register] does, case by case. *)
Lemma register_run (g : Globals) (user : UserCreate.t) (w : World) :
  register g user w =
  if (length (UserCreate.password user) <=? 7)%nat
  then (Raises (HTTPException 400
                  (py "La contraseña debe tener más de 7 caracteres.")), w)
  else
    let u := UserCreate.username user in
    let h := hash_string g (UserCreate.password user) (next_salt w) in
    let behind := [EvExecute (INSERT_INTO_users u h); EvConnect; EvUrandom 16] in
    match disk w with
    | None =>
      (Raises (OperationalError (py "no such table: users")),
       {| disk := None; draws := S (draws w);
          log := EvClose :: behind ++ log w |})
    | Some rows =>
      if existsb (fun r => bool_decide (users.username r = u)) rows
      then (Raises (HTTPException 400 (py "El usuario ya existe.")),
            {| disk := Some rows; draws := S (draws w);
               log := EvClose :: behind ++ log w |})
      else (Returns {| message := py "Usuario registrado correctamente." |},
            {| disk := Some (rows ++ [{| users.id := next_id rows;
                                         users.username := u;
                                         users.password_hash := h |}]);
               draws := S (draws w);
               log := EvClose :: EvCommit :: behind ++ log w |})
    end.
Proof.
  unfold register.
  destruct (length (UserCreate.password user) <=? 7)%nat; [reflexivity|].
  unfold bind at 1. rewrite hash_password_run.
  destruct w as [[rows|] n l]; simpl; [|reflexivity].
  unfold create_user, get_connection, sqlite3_connect, execute. run.
  destruct (existsb _ rows); reflexivity.
Qed.

(** [login] leaves the database as it was. *)
Lemma login_disk (g : Globals) (user : UserLogin.t) (w : World) :
  disk (snd (login g user w)) = disk w.
Proof.
  unfold login. unfold bind at 1.
  destruct (disk w) as [rows|] eqn:Hd.
  - rewrite (get_user_hash_run _ _ _ Hd).
    destruct (fetchone _) as [[|c h]|]; run; try exact Hd.
    unfold bind. rewrite verify_password_run.
    destruct (decode (c :: h)) as [eh|]; simpl; [|exact Hd].
    destruct (digest_matches g _ eh); simpl; exact Hd.
  - destruct w as [d n l]; simpl in *; subst d. reflexivity.
Qed.

Lemma register_unique (g : Globals) (user : UserCreate.t) (w : World) :
  unique_usernames (disk w) -> unique_usernames (disk (snd (register g user w))).
Proof.
  intros Hu. rewrite register_run.
  destruct (length (UserCreate.password user) <=? 7)%nat; [exact Hu|].
  cbv zeta. destruct (disk w) as [rows|]; [|exact I].
  destruct (existsb _ rows) eqn:Hex; [exact Hu|].
  simpl in *. rewrite map_app. simpl.
  apply NoDup_app. split; [exact Hu|]. split.
  - intros x Hx Hx'. apply list_elem_of_singleton in Hx'. subst x.
    apply existsb_matching in Hx. congruence.
  - apply NoDup_singleton.
Qed.

Lemma route_unique (g : Globals) (req : Request) (w : World) :
  unique_usernames (disk w) -> unique_usernames (disk (snd (route g req w))).
Proof.
  destruct req as [user|user]; simpl.
  - apply register_unique.
  - rewrite login_disk. auto.
Qed.

Lemma serve_all_unique (p : Process) (reqs : list Request) (w : World) :
  unique_usernames (disk w) -> unique_usernames (disk (serve_all p reqs w)).
Proof.
  revert w. induction reqs as [|req reqs IH]; simpl; intros w Hu; [exact Hu|].
  apply IH. destruct p as [e|g]; simpl; [exact Hu|].
  pose proof (route_unique g req w Hu) as H.
  destruct (route g req w); exact H.
Qed.

(** A second registration under a username that has just been registered
    is refused, and leaves the table as the first one made it. *)
Lemma register_twice (g : Globals) (first second : UserCreate.t) (w : World)
      (m : MessageResponse) :
  fst (register g first w) = Returns m ->
  UserCreate.username second = UserCreate.username first ->
  (7 < length (UserCreate.password second))%nat ->
  fst (register g second (snd (register g first w))) =
    Raises (HTTPException 400 (py "El usuario ya existe."))
  /\ disk (snd (register g second (snd (register g first w)))) =
     disk (snd (register g first w)).
Proof.
  intros Hfirst Hu Hlen.
  assert (Hin : exists rows,
             disk (snd (register g first w)) = Some rows
             /\ UserCreate.username first ∈ map users.username rows).
  { revert Hfirst. rewrite register_run.
    destruct (length (UserCreate.password first) <=? 7)%nat; [discriminate|].
    cbv zeta. destruct (disk w) as [rows|]; [|discriminate].
    destruct (existsb _ rows); [discriminate|]. intros _. simpl.
    eexists. split; [reflexivity|].
    rewrite map_app. apply elem_of_app. right. simpl. constructor. }
  destruct Hin as (rows & Hd & Hin).
  rewrite (register_run g second).
  destruct (Nat.leb_spec (length (UserCreate.password second)) 7) as [Hle|_]; [lia|].
  cbv zeta. rewrite Hd, Hu.
  apply existsb_matching in Hin. rewrite Hin. split; reflexivity.
Qed.

(** A stored hash that does not decode makes [login] raise
    [InvalidHashError]: not the HTTP 401 of a wrong password. *)
Lemma login_malformed_hash
      (g : Globals) (user : UserLogin.t) (w : World) (rows : list users.row)
      (r : users.row) :
  disk w = Some rows ->
  NoDup (map users.username rows) ->
  r ∈ rows -> users.username r = UserLogin.username user ->
  users.password_hash r <> [] ->
  decode (users.password_hash r) = None ->
  fst (login g user w) = Raises InvalidHashError.
Proof.
  intros Hd Hnd Hin Hu Hne Hdec. unfold login. unfold bind at 1.
  rewrite (get_user_hash_run _ _ _ Hd), <- Hu, (matching_unique _ _ Hnd Hin).
  simpl. destruct (users.password_hash r) as [|c h]; [congruence|].
  unfold bind. rewrite verify_password_run, Hdec. reflexivity.
Qed.



(** C4. [register] raises the HTTP 400 "password too short" error exactly
    when the password has 7 characters or fewer, and then the world is
    untouched: no entropy drawn (no hash computed), nothing logged (no
    connection opened, no INSERT tried), the database as it was. *)
Theorem register_password_length
        (g : Globals) (user : UserCreate.t) (w : World) :
  (fst (register g user w) =
     Raises (HTTPException 400
               (py "La contraseña debe tener más de 7 caracteres."))
   <-> (length (UserCreate.password user) <= 7)%nat)
  /\ ((length (UserCreate.password user) <= 7)%nat ->
      snd (register g user w) = w).
Proof.
  rewrite register_run.
  destruct (Nat.leb_spec (length (UserCreate.password user)) 7) as [Hle|Hgt].
  - split; [split; auto|]. reflexivity.
  - split; [|lia]. split; [|lia]. cbv zeta.
    destruct (disk w) as [rows|]; [destruct (existsb _ rows)|]; simpl;
      intros E;
      first [discriminate | injection E as E; vm_compute in E; discriminate].
Qed.

(** C6. Importing [main] raises [RuntimeError] when [APP_PEPPER] is absent
    from the environment and the [.env] file, or empty: the process exits
    and answers no request. With a non-empty value the import binds
    [PEPPER] to it and the process goes on to serve. *)
Theorem missing_pepper_is_fatal (dotenv environ : gmap str str) (w : World) :
  match load_dotenv dotenv environ !! py "APP_PEPPER" with
  | Some (c :: v) =>
    import_main dotenv environ = Returns {| PEPPER := c :: v |}
    /\ exists w' : World,
        start dotenv environ w = (Serving {| PEPPER := c :: v |}, w')
  | _ =>
    import_main dotenv environ =
      Raises (RuntimeError (py "APP_PEPPER no está configurado"))
    /\ exists e : Exception,
        start dotenv environ w = (Exited e, w)
        /\ forall (req : Request) (v : World), serve (Exited e) req v = (None, v)
  end.
Proof.
  unfold start, import_main, os_getenv.
  destruct (load_dotenv dotenv environ !! py "APP_PEPPER") as [[|c v]|]; simpl.
  - split; [reflexivity|]. eexists. split; reflexivity.
  - split; [reflexivity|]. unfold on_startup. rewrite init_db_run.
    eexists. reflexivity.
  - split; [reflexivity|]. eexists. split; reflexivity.
Qed.

(** C7, as the code has it. The usernames of the table stay unique: if
    they are unique in the database file the process finds, they are
    unique after startup and after every sequence of requests. (Nothing
    requires a username to be non-empty.) *)
Theorem usernames_stay_unique
        (dotenv environ : gmap str str) (reqs : list Request) (w : World) :
  unique_usernames (disk w) ->
  unique_usernames
    (disk (serve_all (fst (start dotenv environ w)) reqs
             (snd (start dotenv environ w)))).
Proof.
  intros Hu. apply serve_all_unique.
  unfold start. destruct (import_main dotenv environ) as [g|e]; simpl; [|exact Hu].
  unfold on_startup. rewrite init_db_run. simpl.
  destruct (disk w); simpl; [exact Hu|apply NoDup_nil_2].
Qed.

End Hasher.

(** ** The properties on the sample instance *)

Lemma sample_decode_encode (eh : EncodedHash) :
  Sample.sample_decode (Sample.sample_encode eh) = Some eh.
Proof.
  destruct eh as [t m p hl salt digest].
  unfold Sample.sample_encode, Sample.sample_decode. simpl.
  rewrite Nat2N.id, length_app.
  destruct (Nat.leb_spec (length salt) (length salt + length digest)) as [_|Hlt];
    [|lia].
  rewrite take_app_length, drop_app_length. reflexivity.
Qed.





Lemma usernames_stay_unique_witness :
  unique_usernames
    (disk (serve_all (H := Sample.libs)
             (fst (start {[ py "APP_PEPPER" := py "pepper" ]} ∅ Sample.fresh))
             [POST_register Sample.alice; POST_register Sample.alice_again]
             (snd (start {[ py "APP_PEPPER" := py "pepper" ]} ∅ Sample.fresh)))).
Proof.
  apply (usernames_stay_unique (L := Sample.libs)).
  simpl. apply NoDup_nil_2.
Defined.

(** The scenario of the specification, run on the sample instance:
    registration, login, login with a wrong password, a second
    registration under the same name, login of an unknown user. *)
Example scenario_of_the_specification :
  fst (register (H := Sample.libs) Sample.g0 Sample.alice Sample.fresh)
    = Returns {| message := py "Usuario registrado correctamente." |}
  /\ fst (login (H := Sample.libs) Sample.g0 Sample.alice_login Sample.after_alice)
     = Returns {| message := py "Inicio de sesión exitoso." |}
  /\ fst (login (H := Sample.libs) Sample.g0
            {| UserLogin.username := py "alice"; UserLogin.password := py "wrongpass" |}
            Sample.after_alice)
     = Raises (HTTPException 401 (py "Credenciales inválidas."))
  /\ fst (register (H := Sample.libs) Sample.g0 Sample.alice_again Sample.after_alice)
     = Raises (HTTPException 400 (py "El usuario ya existe."))
  /\ fst (login (H := Sample.libs) Sample.g0
            {| UserLogin.username := py "bob"; UserLogin.password := py "whatever1" |}
            Sample.after_alice)
     = Raises (HTTPException 404 (py "Usuario no encontrado.")).
Proof. vm_compute. repeat split; reflexivity. Qed.

(** The responses that go out for it, with their status codes. *)
Example responses_of_the_scenario :
  fst (serve (H := Sample.libs) (Serving Sample.g0)
         (POST_register Sample.alice) Sample.fresh)
    = Some (201, py "Usuario registrado correctamente.")
  /\ fst (serve (H := Sample.libs) (Serving Sample.g0)
            (POST_login Sample.alice_login) Sample.after_alice)
     = Some (200, py "Inicio de sesión exitoso.")
  /\ fst (serve (H := Sample.libs) (Serving Sample.g0)
            (POST_register Sample.alice_again) Sample.after_alice)
     = Some (400, py "El usuario ya existe.")
  /\ fst (serve (H := Sample.libs) (Serving Sample.g0)
            (POST_login {| UserLogin.username := py "bob";
                           UserLogin.password := py "whatever1" |})
            Sample.after_alice)
     = Some (404, py "Usuario no encontrado.").
Proof. vm_compute. repeat split; reflexivity. Qed.

(** Seven characters are refused, eight are accepted. *)
Example seven_and_eight_characters :
  fst (register (H := Sample.libs) Sample.g0
         {| UserCreate.username := py "carol"; UserCreate.password := py "1234567" |}
         Sample.fresh)
    = Raises (HTTPException 400
                (py "La contraseña debe tener más de 7 caracteres."))
  /\ fst (register (H := Sample.libs) Sample.g0
            {| UserCreate.username := py "carol"; UserCreate.password := py "12345678" |}
            Sample.fresh)
     = Returns {| message := py "Usuario registrado correctamente." |}.
Proof. vm_compute. split; reflexivity. Qed.

(** C7, as stated, fails: a registration with the empty username and a
    password of eight characters succeeds on the empty table, and the
    table then holds a row whose username is the empty string. *)
Lemma nameless_user_is_registered :
  fst (register (H := Sample.libs) Sample.g0 Sample.nameless Sample.fresh)
    = Returns {| message := py "Usuario registrado correctamente." |}
  /\ map users.username
       (default []
          (disk (snd (register (H := Sample.libs) Sample.g0 Sample.nameless
                        Sample.fresh))))
     = [[]].
Proof. vm_compute. split; reflexivity. Qed.

(** ** Further properties of the handlers and the store *)

(** An event that is none of the events listed is not in the list. *)
Ltac absent :=
  let H := fresh in
  intros H;
  repeat (apply elem_of_cons in H as [H|H]; [discriminate H|]);
  inversion H.

Section Handlers.
Context {L : Libs}.

Lemma login_run (g : Globals) (user : UserLogin.t) (w : World)
      (rows : list users.row) :
  disk w = Some rows ->
  login g user w =
  (match fetchone (map users.password_hash
                     (matching (UserLogin.username user) rows)) with
   | Some (c :: h) =>
     match decode (c :: h) with
     | None => Raises InvalidHashError
     | Some eh =>
       if digest_matches g (UserLogin.password user) eh
       then Returns {| message := py "Inicio de sesión exitoso." |}
       else Raises (HTTPException 401 (py "Credenciales inválidas."))
     end
   | _ => Raises (HTTPException 404 (py "Usuario no encontrado."))
   end,
   logged [EvClose;
           EvExecute (SELECT_password_hash_FROM_users (UserLogin.username user));
           EvConnect] w).
Proof.
  intros Hd. unfold login. unfold bind at 1.
  rewrite (get_user_hash_run _ _ _ Hd).
  destruct (fetchone _) as [[|c h]|]; try reflexivity.
  unfold bind. rewrite verify_password_run.
  destruct (decode (c :: h)) as [eh|]; [|reflexivity].
  destruct (digest_matches g _ eh); reflexivity.
Qed.


Lemma route_prefix (g : Globals) (req : Request) (w : World)
      (rows : list users.row) :
  disk w = Some rows ->
  exists more : list users.row, disk (snd (route g req w)) = Some (rows ++ more).
Proof.
  intros Hd. destruct req as [user|user]; simpl.
  - rewrite register_run.
    destruct (length (UserCreate.password user) <=? 7)%nat;
      [exists []; rewrite app_nil_r; exact Hd|].
    cbv zeta. rewrite Hd. destruct (existsb _ rows); simpl.
    + exists []. rewrite app_nil_r. reflexivity.
    + eexists. reflexivity.
  - rewrite login_disk. exists []. rewrite app_nil_r. exact Hd.
Qed.

Lemma serve_all_prefix (p : Process) (reqs : list Request) (w : World)
      (rows : list users.row) :
  disk w = Some rows ->
  exists more : list users.row, disk (serve_all p reqs w) = Some (rows ++ more).
Proof.
  revert w rows. induction reqs as [|req reqs IH]; simpl; intros w rows Hd.
  - exists []. rewrite app_nil_r. exact Hd.
  - destruct p as [e|g]; simpl; [apply IH; exact Hd|].
    destruct (route_prefix g req w rows Hd) as [more Hmore].
    destruct (route g req w) as [r w1]. simpl in *.
    destruct (IH w1 _ Hmore) as [more' Hmore'].
    exists (more ++ more'). rewrite app_assoc. exact Hmore'.
Qed.

Lemma next_id_bound (rows : list users.row) (r : users.row) :
  r ∈ rows -> (users.id r < next_id rows)%N.
Proof.
  unfold next_id. induction 1 as [r rows|r r' rows _ IH]; simpl; lia.
Qed.

Lemma register_unique_ids (g : Globals) (user : UserCreate.t) (w : World) :
  unique_ids (disk w) -> unique_ids (disk (snd (register g user w))).
Proof.
  intros Hu. rewrite register_run.
  destruct (length (UserCreate.password user) <=? 7)%nat; [exact Hu|].
  cbv zeta. destruct (disk w) as [rows|]; [|exact I].
  destruct (existsb _ rows); [exact Hu|].
  simpl in *. rewrite map_app. simpl.
  apply NoDup_app. split; [exact Hu|]. split; [|apply NoDup_singleton].
  intros x Hx Hx'. apply list_elem_of_singleton in Hx'. subst x.
  apply list_elem_of_In, in_map_iff in Hx as (r & Hid & Hr).
  apply list_elem_of_In, next_id_bound in Hr. lia.
Qed.



(** X5. No request changes or removes a stored credential: with unique
    usernames, the hash stored for a user is the hash [get_user_hash]
    yields for that user after any sequence of requests. *)
Theorem stored_hash_is_kept
        (p : Process) (reqs : list Request) (w : World)
        (rows : list users.row) (r : users.row) :
  disk w = Some rows ->
  NoDup (map users.username rows) ->
  r ∈ rows ->
  fst (get_user_hash (users.username r) (serve_all p reqs w)) =
    Returns (Some (users.password_hash r)).
Proof.
  intros Hd Hnd Hin.
  destruct (serve_all_prefix p reqs w rows Hd) as [more Hmore].
  pose proof (serve_all_unique p reqs w) as Hu.
  rewrite Hd, Hmore in Hu. simpl in Hu. specialize (Hu Hnd).
  rewrite (get_user_hash_run _ _ _ Hmore).
  rewrite (matching_unique r (rows ++ more) Hu); [reflexivity|].
  apply elem_of_app. left. exact Hin.
Qed.


(** X10. The ids stay distinct: if the primary keys of the rows in the
    database file are distinct, they are distinct after any sequence of
    requests. *)
Theorem ids_stay_unique (p : Process) (reqs : list Request) (w : World) :
  unique_ids (disk w) -> unique_ids (disk (serve_all p reqs w)).
Proof.
  revert w. induction reqs as [|req reqs IH]; simpl; intros w Hu; [exact Hu|].
  apply IH. destruct p as [e|g]; simpl; [exact Hu|].
  assert (H : unique_ids (disk (snd (route g req w)))).
  { destruct req as [user|user]; simpl.
    - apply register_unique_ids. exact Hu.
    - rewrite login_disk. exact Hu. }
  destruct (route g req w); exact H.
Qed.

Lemma create_user_run (u h : str) (w : World) :
  create_user u h w =
  match disk w with
  | None =>
    (Raises (OperationalError (py "no such table: users")),
     logged [EvClose; EvExecute (INSERT_INTO_users u h); EvConnect] w)
  | Some rows =>
    if existsb (fun r => bool_decide (users.username r = u)) rows
    then (Raises (IntegrityError (py "UNIQUE constraint failed: users.username")),
          logged [EvClose; EvExecute (INSERT_INTO_users u h); EvConnect] w)
    else (Returns tt,
          {| disk := Some (rows ++ [{| users.id := next_id rows;
                                       users.username := u;
                                       users.password_hash := h |}]);
             draws := draws w;
             log := [EvClose; EvCommit; EvExecute (INSERT_INTO_users u h); EvConnect]
                    ++ log w |})
  end.
Proof.
  destruct w as [[rows|] n l]; simpl; [|reflexivity].
  unfold create_user, get_connection, sqlite3_connect, execute. run.
  destruct (existsb _ rows); reflexivity.
Qed.

(** X8. [create_user] closes the connection it opens on every path, also
    when the INSERT raises, and it commits exactly when it returns: when
    it raises, the database is what it was. *)
Theorem create_user_closes_and_commits_on_success (u h : str) (w : World) :
  exists evs : list Event,
    log (snd (create_user u h w)) = EvClose :: evs ++ log w
    /\ (EvClose ∉ evs)
    /\ match fst (create_user u h w) with
       | Returns _ => EvCommit ∈ evs
       | Raises _ => (EvCommit ∉ evs) /\ disk (snd (create_user u h w)) = disk w
       end.
Proof.
  rewrite create_user_run.
  destruct (disk w) as [rows|] eqn:Hd; [destruct (existsb _ rows)|]; simpl.
  - exists [EvExecute (INSERT_INTO_users u h); EvConnect].
    split; [reflexivity|]. rewrite Hd. repeat split; absent.
  - exists [EvCommit; EvExecute (INSERT_INTO_users u h); EvConnect].
    split; [reflexivity|]. split; [absent|]. constructor.
  - exists [EvExecute (INSERT_INTO_users u h); EvConnect].
    split; [reflexivity|]. rewrite Hd. repeat split; absent.
Qed.


(** X9. The process environment wins over the [.env] file: when
    [APP_PEPPER] is set in the environment, the import binds [PEPPER] to
    that value whatever the file says, and raises when that value is
    empty, even if the file has a pepper. *)
Theorem environment_wins_over_dotenv (dotenv environ : gmap str str) (v : str) :
  environ !! py "APP_PEPPER" = Some v ->
  import_main dotenv environ =
    match v with
    | [] => Raises (RuntimeError (py "APP_PEPPER no está configurado"))
    | _ :: _ => Returns {| PEPPER := v |}
    end.
Proof.
  intros Hv. unfold import_main, load_dotenv, os_getenv.
  rewrite (lookup_union_Some_l environ dotenv _ v Hv).
  destruct v; reflexivity.
Qed.

Section Codec.
Hypothesis decode_encode : forall eh : EncodedHash, decode (encode eh) = Some eh.

Lemma hash_string_nonempty (g : Globals) (p : str) (salt : list N) :
  decode [] = None -> hash_string g p salt <> [].
Proof.
  intros Hempty E. unfold hash_string in E.
  apply (f_equal decode) in E. rewrite decode_encode, Hempty in E. discriminate.
Qed.


Lemma login_after_register
      (g : Globals) (user : UserCreate.t) (password : str)
      (reqs : list Request) (w : World) (m : MessageResponse) :
  decode [] = None ->
  unique_usernames (disk w) ->
  fst (register g user w) = Returns m ->
  fst (login g (with_password user password)
         (serve_all (Serving g) reqs (snd (register g user w)))) =
    if bool_decide (peppered_digest g (next_salt w) password
                    = peppered_digest g (next_salt w) (UserCreate.password user))
    then Returns {| message := py "Inicio de sesión exitoso." |}
    else Raises (HTTPException 401 (py "Credenciales inválidas.")).
Proof.
  intros Hempty Hu Hreg.
  pose proof (register_unique g user w Hu) as Hu1.
  revert Hreg Hu1. rewrite register_run.
  destruct (length (UserCreate.password user) <=? 7)%nat; [discriminate|].
  cbv zeta. destruct (disk w) as [rows|] eqn:Hd; [|discriminate].
  destruct (existsb _ rows); [discriminate|]. simpl. intros _ Hu1.
  set (h := hash_string g (UserCreate.password user) (next_salt w)) in *.
  set (r := {| users.id := next_id rows;
               users.username := UserCreate.username user;
               users.password_hash := h |}) in *.
  match goal with
  | |- context [serve_all _ _ ?w1] =>
    destruct (serve_all_prefix (Serving g) reqs w1 (rows ++ [r]) eq_refl)
      as [more Hmore];
    pose proof (serve_all_unique (Serving g) reqs w1 Hu1) as Hu2
  end.
  rewrite Hmore in Hu2. simpl in Hu2.
  rewrite (login_run _ _ _ _ Hmore). simpl.
  change (UserCreate.username user) with (users.username r).
  rewrite (matching_unique r _ Hu2) by set_solver.
  simpl. destruct h as [|c t] eqn:Hh.
  - exfalso. exact (hash_string_nonempty g _ _ Hempty Hh).
  - rewrite <- Hh. unfold h, hash_string. rewrite decode_encode.
    unfold digest_matches, peppered_digest. simpl.
    destruct (bool_decide _); reflexivity.
Qed.

(** X2. A registered user can log in, also later: after a registration
    that succeeded and any sequence of further requests, [login] with the
    same username and password returns the success message. *)
Theorem registered_user_logs_in
        (g : Globals) (user : UserCreate.t) (reqs : list Request) (w : World)
        (m : MessageResponse) :
  decode [] = None ->
  unique_usernames (disk w) ->
  fst (register g user w) = Returns m ->
  fst (login g (credentials user)
         (serve_all (Serving g) reqs (snd (register g user w)))) =
    Returns {| message := py "Inicio de sesión exitoso." |}.
Proof.
  intros Hempty Hu Hreg.
  change (credentials user) with (with_password user (UserCreate.password user)).
  rewrite (login_after_register g user _ reqs w m Hempty Hu Hreg).
  rewrite bool_decide_eq_true_2 by reflexivity. reflexivity.
Qed.


End Codec.
End Handlers.


Lemma registered_user_logs_in_witness :
  fst (login (H := Sample.libs) Sample.g0 (credentials Sample.alice)
         (serve_all (H := Sample.libs) (Serving Sample.g0)
            [POST_register Sample.alice_again; POST_register Sample.bob]
            (snd (register (H := Sample.libs) Sample.g0 Sample.alice Sample.fresh))))
  = Returns {| message := py "Inicio de sesión exitoso." |}.
Proof.
  apply (registered_user_logs_in (L := Sample.libs) sample_decode_encode
           Sample.g0 Sample.alice
           [POST_register Sample.alice_again; POST_register Sample.bob]
           Sample.fresh {| message := py "Usuario registrado correctamente." |}).
  - reflexivity.
  - simpl. apply NoDup_nil_2.
  - reflexivity.
Defined.


Lemma stored_hash_is_kept_witness :
  fst (get_user_hash (py "alice")
         (serve_all (H := Sample.libs) (Serving Sample.g0)
            [POST_register Sample.alice_again; POST_register Sample.bob;
             POST_login Sample.alice_login]
            Sample.after_alice))
  = Returns (Some (hash_string (H := Sample.libs) Sample.g0 (py "longpassword1")
                     (next_salt (H := Sample.libs) Sample.fresh))).
Proof.
  apply (stored_hash_is_kept (L := Sample.libs) (Serving Sample.g0)
           [POST_register Sample.alice_again; POST_register Sample.bob;
            POST_login Sample.alice_login]
           Sample.after_alice Sample.rows_after_alice
           {| users.id := 1;
              users.username := py "alice";
              users.password_hash :=
                hash_string (H := Sample.libs) Sample.g0 (py "longpassword1")
                  (next_salt (H := Sample.libs) Sample.fresh) |}).
  - reflexivity.
  - vm_compute. apply NoDup_singleton.
  - vm_compute. apply list_elem_of_here.
Defined.



Lemma environment_wins_over_dotenv_witness :
  import_main {[ py "APP_PEPPER" := py "from the file" ]}
              {[ py "APP_PEPPER" := py "from the environment" ]}
  = Returns {| PEPPER := py "from the environment" |}.
Proof.
  apply (environment_wins_over_dotenv
           {[ py "APP_PEPPER" := py "from the file" ]}
           {[ py "APP_PEPPER" := py "from the environment" ]}
           (py "from the environment")).
  vm_compute. reflexivity.
Defined.

Lemma ids_stay_unique_witness :
  unique_ids
    (disk (serve_all (H := Sample.libs) (Serving Sample.g0)
             [POST_register Sample.bob; POST_register Sample.alice_again]
             Sample.after_alice)).
Proof.
  apply (ids_stay_unique (L := Sample.libs)).
  vm_compute. apply NoDup_singleton.
Defined.


End MainProps.

(* ===================================================================== *)
(** * Properties of generate_pepper.py                                     *)
(* ===================================================================== *)

Module GeneratePepperProps.
Import Python GeneratePepper GeneratePepperSpec.
Local Open Scope py_scope.

Ltac run :=
  unfold with_open, open_r, open_w, read, write, Path_exists, io, set_fs, print,
    bind, ret, raise, try_except, try_finally, get, modify; simpl.

(** ** Lines *)

Lemma split_not_nil (sep : N) (s : str) : split sep s <> [].
Proof.
  destruct s as [|c s]; simpl; [discriminate|].
  destruct (c =? sep); [discriminate|].
  destruct (split sep s); discriminate.
Qed.

Lemma split_no_sep (sep : N) (s : str) :
  Forall (fun l : str => sep ∉ l) (split sep s).
Proof.
  induction s as [|c s IH]; simpl.
  - constructor; [|constructor]. intros H. inversion H.
  - destruct (N.eqb_spec c sep) as [->|Hne].
    + constructor; [|exact IH]. intros H. inversion H.
    + destruct (split sep s) as [|l ls].
      * constructor; [|constructor].
        rewrite not_elem_of_cons. split; [congruence|]. intros H. inversion H.
      * inversion IH; subst. constructor; [|assumption].
        rewrite not_elem_of_cons. split; [congruence|assumption].
Qed.

Lemma split_line (sep : N) (l rest : str) :
  sep ∉ l -> split sep (l ++ sep :: rest) = l :: split sep rest.
Proof.
  induction l as [|c l IH]; simpl; intros Hl.
  - rewrite N.eqb_refl. reflexivity.
  - apply not_elem_of_cons in Hl as [Hc Hl].
    destruct (N.eqb_spec c sep) as [E|_]; [congruence|].
    rewrite (IH Hl). reflexivity.
Qed.

Lemma split_last_line (sep : N) (l : str) : sep ∉ l -> split sep l = [l].
Proof.
  induction l as [|c l IH]; simpl; intros Hl; [reflexivity|].
  apply not_elem_of_cons in Hl as [Hc Hl].
  destruct (N.eqb_spec c sep) as [E|_]; [congruence|].
  rewrite (IH Hl). reflexivity.
Qed.

Lemma split_join (sep : N) (ls : list str) :
  ls <> [] -> Forall (fun l : str => sep ∉ l) ls ->
  split sep (join [sep] ls) = ls.
Proof.
  induction ls as [|l ls IH]; [congruence|]. intros _ Hall.
  inversion Hall as [|? ? Hl Hls]; subst.
  destruct ls as [|l' ls].
  - simpl. apply split_last_line. exact Hl.
  - change (join [sep] (l :: l' :: ls)) with (l ++ sep :: join [sep] (l' :: ls)).
    rewrite (split_line _ _ _ Hl), IH; [reflexivity|discriminate|exact Hls].
Qed.

Lemma lines_of_no_LF (s : str) : Forall (fun l : str => LF ∉ l) (lines_of s).
Proof.
  unfold lines_of. destruct (str_not s); [constructor|apply split_no_sep].
Qed.

Lemma filter_app_entry (kept : list str) (entry : str) :
  is_pepper_entry entry = true ->
  List.filter is_pepper_entry
    (List.filter (fun line => negb (is_pepper_entry line)) kept ++ [entry])
  = [entry].
Proof.
  intros He. rewrite List.filter_app. simpl. rewrite He.
  induction kept as [|l kept IH]; simpl; [reflexivity|].
  destruct (is_pepper_entry l) eqn:E; simpl; [exact IH|].
  rewrite E. exact IH.
Qed.

Lemma entry_is_pepper_entry (pepper : str) :
  is_pepper_entry (py "APP_PEPPER=" ++ pepper) = true.
Proof.
  unfold is_pepper_entry.
  change (py "APP_PEPPER=") with [65; 80; 80; 95; 80; 69; 80; 80; 69; 82; 61].
  simpl. reflexivity.
Qed.

Lemma kept_lines_no_LF (existing : str) :
  Forall (fun l : str => LF ∉ l) (kept_lines existing).
Proof.
  unfold kept_lines.
  pose proof (lines_of_no_LF (strip existing)) as H.
  induction H as [|l ls Hl Hls IH]; simpl; [constructor|].
  destruct (negb (is_pepper_entry l)); [constructor|]; assumption.
Qed.

Lemma entry_no_LF (pepper : str) : LF ∉ pepper -> LF ∉ py "APP_PEPPER=" ++ pepper.
Proof.
  intros Hp Hin. apply elem_of_app in Hin as [Hin|Hin]; [|auto].
  assert (Hb : bool_decide (LF ∈ py "APP_PEPPER=") = false)
    by (vm_compute; reflexivity).
  apply bool_decide_eq_false in Hb. auto.
Qed.

(** ** Running the writers *)

#[local] Opaque py.

Ltac step flt :=
  match goal with
  | H : forall op, flt op = None |- context [flt ?op] => rewrite (H op); simpl
  | H : flt ?op = _ |- context [flt ?op] => rewrite H; simpl
  | H : ?files !! ?p = _ |- context [?files !! ?p] => rewrite H; simpl
  | |- context [<[?p := _]> _ !! ?p] => rewrite lookup_insert_eq; simpl
  | |- context [flt ?op] => let E := fresh "E" in destruct (flt op) eqn:E; simpl
  end.

Lemma create_env_file_run (pepper env_path : str) (w : World) :
  no_faults w ->
  create_env_file pepper env_path w =
  (Returns true,
   with_file env_path (rewritten pepper (existing_content env_path w)) w).
Proof.
  intros Hok. unfold rewritten, kept_lines, existing_content, with_file.
  destruct w as [files out flt part]. unfold no_faults in Hok. simpl in *.
  unfold create_env_file. run.
  destruct (files !! env_path) as [text|] eqn:E; simpl; repeat step flt;
    rewrite insert_insert_eq; reflexivity.
Qed.



(** C8, as the code has it. When no file operation fails,
    [create_env_file] returns [True] and the file holds: the lines of the
    text read, stripped of leading and trailing white space as a whole,
    that do not start with [APP_PEPPER=], in their order, then the line
    [APP_PEPPER=<pepper>], each line ended by a line feed. The pepper
    line is the only line of them that starts with [APP_PEPPER=], and for
    a pepper without a line feed these are exactly the lines of the file.
    (The file is opened for writing and written in place.) *)
Theorem create_env_file_rewrites (pepper env_path : str) (w : World) :
  no_faults w ->
  create_env_file pepper env_path w =
    (Returns true,
     with_file env_path
       (join [LF] (kept_lines (existing_content env_path w)
                   ++ [py "APP_PEPPER=" ++ pepper]) ++ [LF]) w)
  /\ List.filter is_pepper_entry
       (kept_lines (existing_content env_path w) ++ [py "APP_PEPPER=" ++ pepper])
     = [py "APP_PEPPER=" ++ pepper]
  /\ (LF ∉ pepper ->
      split LF (join [LF] (kept_lines (existing_content env_path w)
                           ++ [py "APP_PEPPER=" ++ pepper]))
      = kept_lines (existing_content env_path w) ++ [py "APP_PEPPER=" ++ pepper]).
Proof.
  intros Hok. split; [|split].
  - apply create_env_file_run. exact Hok.
  - apply filter_app_entry, entry_is_pepper_entry.
  - intros Hp. apply split_join.
    + destruct (kept_lines _); discriminate.
    + apply Forall_app. split; [apply kept_lines_no_LF|].
      constructor; [|constructor]. apply entry_no_LF. exact Hp.
Qed.


Lemma create_env_file_rewrites_witness :
  create_env_file (py "s3cret") SampleFiles.dotenv_path
    (SampleFiles.quiet {[ SampleFiles.dotenv_path := SampleFiles.two_settings ]}) =
    (Returns true,
     with_file SampleFiles.dotenv_path
       (join [LF]
          (kept_lines
             (existing_content SampleFiles.dotenv_path
                (SampleFiles.quiet
                   {[ SampleFiles.dotenv_path := SampleFiles.two_settings ]}))
           ++ [py "APP_PEPPER=" ++ py "s3cret"]) ++ [LF])
       (SampleFiles.quiet {[ SampleFiles.dotenv_path := SampleFiles.two_settings ]}))
  /\ List.filter is_pepper_entry
       (kept_lines
          (existing_content SampleFiles.dotenv_path
             (SampleFiles.quiet
                {[ SampleFiles.dotenv_path := SampleFiles.two_settings ]}))
        ++ [py "APP_PEPPER=" ++ py "s3cret"])
     = [py "APP_PEPPER=" ++ py "s3cret"]
  /\ (LF ∉ py "s3cret" ->
      split LF
        (join [LF]
           (kept_lines
              (existing_content SampleFiles.dotenv_path
                 (SampleFiles.quiet
                    {[ SampleFiles.dotenv_path := SampleFiles.two_settings ]}))
            ++ [py "APP_PEPPER=" ++ py "s3cret"]))
      = kept_lines
          (existing_content SampleFiles.dotenv_path
             (SampleFiles.quiet
                {[ SampleFiles.dotenv_path := SampleFiles.two_settings ]}))
        ++ [py "APP_PEPPER=" ++ py "s3cret"]).
Proof.
  apply (create_env_file_rewrites (py "s3cret") SampleFiles.dotenv_path
           (SampleFiles.quiet
              {[ SampleFiles.dotenv_path := SampleFiles.two_settings ]})).
  intros op. reflexivity.
Defined.

(** C8, as stated, fails. With a write that fails after three characters
    [create_env_file] returns [False] and leaves the file holding those
    three characters: neither the two settings it held nor the rewritten
    text. And where nothing fails, a setting that was indented comes back
    without its indentation. *)
Lemma overwrite_leaves_partial_file :
  fst (create_env_file (py "s3cret") SampleFiles.dotenv_path
         (SampleFiles.disk_full
            {[ SampleFiles.dotenv_path := SampleFiles.two_settings ]}))
    = Returns false
  /\ fs (snd (create_env_file (py "s3cret") SampleFiles.dotenv_path
                (SampleFiles.disk_full
                   {[ SampleFiles.dotenv_path := SampleFiles.two_settings ]})))
       !! SampleFiles.dotenv_path
     = Some (py "FOO")
  /\ fs (snd (create_env_file (py "s3cret") SampleFiles.dotenv_path
                (SampleFiles.quiet
                   {[ SampleFiles.dotenv_path := SampleFiles.indented_setting ]})))
       !! SampleFiles.dotenv_path
     = Some (py "FOO=1" ++ [LF] ++ py "APP_PEPPER=s3cret" ++ [LF]).
Proof. vm_compute. repeat split; reflexivity. Qed.

(** ** The random token *)

Lemma list_ind3 {A} (P : list A -> Prop) :
  P [] -> (forall a, P [a]) -> (forall a b, P [a; b]) ->
  (forall a b c rest, P rest -> P (a :: b :: c :: rest)) ->
  forall l, P l.
Proof.
  intros H0 H1 H2 H3.
  fix IH 1. intros [|a [|b [|c rest]]];
    [exact H0 | apply H1 | apply H2 | apply H3; apply IH].
Qed.

Lemma b64_char_urlsafe (i : N) : i < 64 -> is_urlsafe (b64_char i) = true.
Proof.
  intros Hi. unfold b64_char.
  assert (Hall : forallb is_urlsafe urlsafe_alphabet = true)
    by (vm_compute; reflexivity).
  rewrite forallb_forall in Hall. apply Hall. apply nth_In.
  assert (Hlen : length urlsafe_alphabet = 64%nat) by (vm_compute; reflexivity).
  rewrite Hlen. lia.
Qed.

Lemma sextets (a b c : N) :
  a < 256 -> b < 256 -> c < 256 ->
  a / 4 < 64 /\ a mod 4 * 16 < 64 /\ a mod 4 * 16 + b / 16 < 64
  /\ b mod 16 * 4 < 64 /\ b mod 16 * 4 + c / 64 < 64 /\ c mod 64 < 64.
Proof.
  intros Ha Hb Hc.
  assert (a / 4 < 64) by (apply N.Div0.div_lt_upper_bound; lia).
  assert (b / 16 < 16) by (apply N.Div0.div_lt_upper_bound; lia).
  assert (c / 64 < 4) by (apply N.Div0.div_lt_upper_bound; lia).
  assert (a mod 4 < 4) by (apply N.mod_lt; discriminate).
  assert (b mod 16 < 16) by (apply N.mod_lt; discriminate).
  assert (c mod 64 < 64) by (apply N.mod_lt; discriminate).
  lia.
Qed.

Lemma quads_step (n : nat) :
  ((4 * (3 + n) + 2) / 3 = 4 + (4 * n + 2) / 3)%nat.
Proof.
  replace (4 * (3 + n) + 2)%nat with ((4 * n + 2) + 4 * 3)%nat by lia.
  rewrite Nat.div_add by discriminate. lia.
Qed.

Lemma lstrip_char_app (c d : N) (x y : str) :
  d <> c -> lstrip_char c (x ++ d :: y) = lstrip_char c x ++ d :: y.
Proof.
  intros Hd. induction x as [|e x IH]; simpl.
  - destruct (N.eqb_spec d c); [contradiction|reflexivity].
  - destruct (e =? c); [exact IH|reflexivity].
Qed.

Lemma rstrip_char_app (c d : N) (x y : str) :
  d <> c -> rstrip_char c (x ++ d :: y) = x ++ d :: rstrip_char c y.
Proof.
  intros Hd. unfold rstrip_char.
  rewrite rev_app_distr. simpl. rewrite <- app_assoc. simpl.
  rewrite (lstrip_char_app c d (rev y) (rev x) Hd).
  rewrite rev_app_distr. simpl. rewrite rev_involutive, <- app_assoc. reflexivity.
Qed.

Lemma urlsafe_not_pad (c : N) : is_urlsafe c = true -> c <> b64_pad.
Proof. intros H ->. vm_compute in H. discriminate. Qed.

Lemma token_bytes_bytes (random : nat -> N) (n : nat) :
  Forall (fun b => b < 256) (token_bytes random n).
Proof.
  unfold token_bytes. apply Forall_forall. intros b Hb.
  apply list_elem_of_In, in_map_iff in Hb as (i & <- & _).
  apply N.mod_lt. discriminate.
Qed.

Lemma token_bytes_length (random : nat -> N) (n : nat) :
  length (token_bytes random n) = n.
Proof. unfold token_bytes. rewrite length_map, length_seq. reflexivity. Qed.

Lemma token_of_bytes (bs : list N) :
  Forall (fun b => b < 256) bs ->
  length (rstrip_char b64_pad (urlsafe_b64encode bs)) = ((4 * length bs + 2) / 3)%nat
  /\ Forall (fun c => is_urlsafe c = true) (rstrip_char b64_pad (urlsafe_b64encode bs)).
Proof.
  induction bs as [|a|a b|a b c rest IH] using list_ind3; intros Hb.
  - split; [reflexivity|constructor].
  - inversion Hb as [|? ? Ha _]; subst.
    destruct (sextets a a a Ha Ha Ha) as (S1 & S2 & _).
    assert (H1 := b64_char_urlsafe _ S1). assert (H2 := b64_char_urlsafe _ S2).
    simpl urlsafe_b64encode.
    change [b64_char (a / 4); b64_char (a mod 4 * 16); b64_pad; b64_pad]
      with ([b64_char (a / 4)] ++ b64_char (a mod 4 * 16) :: [b64_pad; b64_pad]).
    rewrite (rstrip_char_app _ _ _ _ (urlsafe_not_pad _ H2)).
    split; [reflexivity|]. repeat constructor; assumption.
  - inversion Hb as [|? ? Ha Hb']; subst. inversion Hb' as [|? ? Hbb _]; subst.
    destruct (sextets a b b Ha Hbb Hbb) as (S1 & _ & S2 & S3 & _).
    assert (H1 := b64_char_urlsafe _ S1). assert (H2 := b64_char_urlsafe _ S2).
    assert (H3 := b64_char_urlsafe _ S3).
    simpl urlsafe_b64encode.
    change [b64_char (a / 4); b64_char (a mod 4 * 16 + b / 16);
            b64_char (b mod 16 * 4); b64_pad]
      with ([b64_char (a / 4); b64_char (a mod 4 * 16 + b / 16)]
              ++ b64_char (b mod 16 * 4) :: [b64_pad]).
    rewrite (rstrip_char_app _ _ _ _ (urlsafe_not_pad _ H3)).
    split; [reflexivity|]. repeat constructor; assumption.
  - inversion Hb as [|? ? Ha Hb']; subst. inversion Hb' as [|? ? Hbb Hb'']; subst.
    inversion Hb'' as [|? ? Hc Hrest]; subst.
    destruct (IH Hrest) as [IHlen IHall].
    destruct (sextets a b c Ha Hbb Hc) as (S1 & _ & S2 & _ & S3 & S4).
    assert (H1 := b64_char_urlsafe _ S1). assert (H2 := b64_char_urlsafe _ S2).
    assert (H3 := b64_char_urlsafe _ S3). assert (H4 := b64_char_urlsafe _ S4).
    change (urlsafe_b64encode (a :: b :: c :: rest))
      with ([b64_char (a / 4); b64_char (a mod 4 * 16 + b / 16);
             b64_char (b mod 16 * 4 + c / 64)]
              ++ b64_char (c mod 64) :: urlsafe_b64encode rest).
    rewrite (rstrip_char_app _ _ _ _ (urlsafe_not_pad _ H4)).
    split.
    + change (length (a :: b :: c :: rest)) with (3 + length rest)%nat.
      rewrite quads_step, length_app. cbn [length]. rewrite IHlen. lia.
    + simpl. repeat constructor; assumption.
Qed.

(** ** Stripping and lines *)

Lemma lstrip_app (d : N) (x y : str) :
  isspace d = false -> lstrip (x ++ d :: y) = lstrip x ++ d :: y.
Proof.
  intros Hd. induction x as [|e x IH]; simpl.
  - rewrite Hd. reflexivity.
  - destruct (isspace e); [exact IH|reflexivity].
Qed.

Lemma rstrip_app (d : N) (x y : str) :
  isspace d = false -> rstrip (x ++ d :: y) = x ++ d :: rstrip y.
Proof.
  intros Hd. unfold rstrip.
  rewrite rev_app_distr. simpl. rewrite <- app_assoc. simpl.
  rewrite (lstrip_app d (rev y) (rev x) Hd).
  rewrite rev_app_distr. simpl. rewrite rev_involutive, <- app_assoc. reflexivity.
Qed.

Lemma rstrip_snoc_space (s : N) (y : str) :
  isspace s = true -> rstrip (y ++ [s]) = rstrip y.
Proof.
  intros Hs. unfold rstrip. rewrite rev_app_distr. simpl. rewrite Hs. reflexivity.
Qed.

Lemma lstrip_suffix (s : str) : exists pre : str, s = pre ++ lstrip s.
Proof.
  induction s as [|c s [pre IH]]; simpl; [exists []; reflexivity|].
  destruct (isspace c); [|exists []; reflexivity].
  exists (c :: pre). simpl. f_equal. exact IH.
Qed.

Lemma lstrip_sub (c : N) (s : str) : c ∈ lstrip s -> c ∈ s.
Proof.
  destruct (lstrip_suffix s) as [pre E]. intros H. rewrite E.
  apply elem_of_app. right. exact H.
Qed.

Lemma elem_of_rev (c : N) (s : str) : c ∈ rev s <-> c ∈ s.
Proof. rewrite !list_elem_of_In. symmetry. apply in_rev. Qed.

Lemma rstrip_sub (c : N) (s : str) : c ∈ rstrip s -> c ∈ s.
Proof.
  unfold rstrip. intros H.
  apply (proj1 (elem_of_rev _ _)), lstrip_sub in H.
  exact (proj1 (elem_of_rev _ _) H).
Qed.

Lemma strip_sub (c : N) (s : str) : c ∈ strip s -> c ∈ s.
Proof. unfold strip. intros H. apply lstrip_sub, rstrip_sub. exact H. Qed.

Lemma split_sub (sep c : N) (s l : str) : l ∈ split sep s -> c ∈ l -> c ∈ s.
Proof.
  revert l. induction s as [|d s IH]; simpl; intros l Hl Hc.
  - apply list_elem_of_singleton in Hl. subst l. inversion Hc.
  - destruct (d =? sep).
    + apply elem_of_cons in Hl as [->|Hl]; [inversion Hc|].
      right. exact (IH l Hl Hc).
    + destruct (split sep s) as [|l0 ls] eqn:E.
      * apply list_elem_of_singleton in Hl. subst l.
        apply list_elem_of_singleton in Hc. subst c. left.
      * apply elem_of_cons in Hl as [->|Hl].
        -- apply elem_of_cons in Hc as [->|Hc]; [left|right].
           apply (IH l0); [left|exact Hc].
        -- right. apply (IH l); [right; exact Hl|exact Hc].
Qed.

Lemma universal_newlines_id (s : str) : CR ∉ s -> universal_newlines s = s.
Proof.
  induction s as [|c s IH]; [reflexivity|]. intros H.
  apply not_elem_of_cons in H as [Hc Hs]. simpl.
  destruct (N.eqb_spec c CR) as [E|_]; [congruence|].
  rewrite (IH Hs). reflexivity.
Qed.

Lemma universal_newlines_no_CR (s : str) : CR ∉ universal_newlines s.
Proof.
  assert (H : forall (n : nat) (t : str),
             (length t <= n)%nat -> CR ∉ universal_newlines t).
  { induction n as [|n IH]; intros t Hlen.
    - destruct t; [|simpl in Hlen; lia]. simpl. intros H. inversion H.
    - destruct t as [|c t]; [simpl; intros H; inversion H|].
      simpl in Hlen. simpl.
      destruct (N.eqb_spec c CR) as [E|Hne].
      + destruct t as [|d t].
        * intros H. apply list_elem_of_singleton in H. discriminate H.
        * destruct (d =? LF).
          -- apply not_elem_of_cons. split; [discriminate|].
             apply IH. simpl in Hlen. lia.
          -- apply not_elem_of_cons. split; [discriminate|].
             apply IH. simpl in *. lia.
      + apply not_elem_of_cons. split; [congruence|]. apply IH. lia. }
  exact (H (length s) s (Nat.le_refl _)).
Qed.

Lemma existing_content_no_CR (path : str) (w : World) :
  CR ∉ existing_content path w.
Proof.
  unfold existing_content. destruct (fs w !! path).
  - apply universal_newlines_no_CR.
  - intros H. inversion H.
Qed.

Lemma kept_lines_sub (existing l : str) (c : N) :
  l ∈ kept_lines existing -> c ∈ l -> c ∈ existing.
Proof.
  unfold kept_lines, lines_of. intros Hl Hc.
  apply list_elem_of_In, filter_In in Hl as [Hl _].
  destruct (str_not (strip existing)); [inversion Hl|].
  apply list_elem_of_In in Hl.
  apply strip_sub. exact (split_sub LF c _ l Hl Hc).
Qed.

Lemma kept_lines_kept (existing : str) :
  List.filter (fun line => negb (is_pepper_entry line)) (kept_lines existing)
  = kept_lines existing.
Proof.
  unfold kept_lines. generalize (lines_of (strip existing)). intros ls.
  induction ls as [|l ls IH]; simpl; [reflexivity|].
  destruct (negb (is_pepper_entry l)) eqn:E; simpl; [rewrite E, IH|]; auto.
Qed.

Lemma join_snoc (ls : list str) (e : str) :
  join [LF] (ls ++ [e]) = flat ls ++ e.
Proof.
  induction ls as [|l ls IH]; [reflexivity|].
  change (flat (l :: ls)) with ((l ++ [LF]) ++ flat ls).
  rewrite <- !app_assoc, <- IH. simpl.
  destruct (ls ++ [e]) eqn:E; [destruct ls; discriminate|reflexivity].
Qed.

Lemma no_CR_in_lines (ls : list str) (e : str) :
  Forall (fun l : str => CR ∉ l) ls -> CR ∉ e -> CR ∉ flat ls ++ e ++ [LF].
Proof.
  intros Hls He. induction Hls as [|l ls Hl _ IH]; simpl.
  - intros H. apply elem_of_app in H as [H|H]; [auto|].
    apply list_elem_of_singleton in H. discriminate.
  - change (flat (l :: ls)) with ((l ++ [LF]) ++ flat ls).
    rewrite <- !app_assoc. intros H.
    apply elem_of_app in H as [H|H]; [auto|].
    apply elem_of_cons in H as [H|H]; [discriminate|]. auto.
Qed.

Lemma rewritten_keeps (pepper existing : str) :
  starts_flush (kept_lines existing) ->
  LF ∉ pepper ->
  kept_lines (rewritten pepper existing) = kept_lines existing.
Proof.
  intros Hflush Hlf.
  assert (HP : py "APP_PEPPER=" = [65; 80; 80; 95; 80; 69; 80; 80; 69; 82] ++ [61])
    by (vm_compute; reflexivity).
  set (kept := kept_lines existing) in *.
  assert (Hstrip : strip (rewritten pepper existing)
                   = join [LF] (kept ++ [py "APP_PEPPER=" ++ rstrip pepper])).
  { unfold rewritten. fold kept. rewrite !join_snoc, <- !app_assoc. unfold strip.
    assert (Hl : lstrip (flat kept ++ py "APP_PEPPER=" ++ pepper ++ [LF])
                 = flat kept ++ py "APP_PEPPER=" ++ pepper ++ [LF]).
    { destruct kept as [|[|c t] ks]; simpl in Hflush.
      - rewrite HP. reflexivity.
      - contradiction.
      - simpl. rewrite Hflush. reflexivity. }
    rewrite Hl, HP, <- !app_assoc.
    rewrite (app_assoc (flat kept)).
    rewrite (rstrip_app 61 _ (pepper ++ [LF])) by reflexivity.
    rewrite (rstrip_snoc_space LF pepper) by reflexivity.
    rewrite <- app_assoc. reflexivity. }
  unfold kept_lines at 1. rewrite Hstrip. unfold lines_of.
  assert (Hne : str_not (join [LF] (kept ++ [py "APP_PEPPER=" ++ rstrip pepper]))
                = false).
  { rewrite join_snoc, HP. destruct (flat kept); reflexivity. }
  rewrite Hne, split_join.
  - rewrite List.filter_app. fold kept. unfold kept at 1.
    rewrite kept_lines_kept. cbn [List.filter].
    rewrite entry_is_pepper_entry. cbn [negb]. apply app_nil_r.
  - destruct kept; discriminate.
  - apply Forall_app. split; [apply kept_lines_no_LF|].
    constructor; [|constructor]. apply entry_no_LF.
    intros H. apply Hlf. exact (rstrip_sub _ _ H).
Qed.

(** ** The writers and the script *)












(** X12. [generate_pepper(length)] does not have [length] characters: it
    has the characters of the unpadded Base64 text of [length] random
    bytes, [(4 * length + 2) / 3] of them rounded down; 43 for the
    default 32. *)
Theorem generate_pepper_length (random : nat -> N) (n : nat) :
  length (generate_pepper random n) = ((4 * n + 2) / 3)%nat
  /\ length (generate_pepper random 32) = 43%nat.
Proof.
  assert (H : forall k : nat,
             length (generate_pepper random k) = ((4 * k + 2) / 3)%nat).
  { intros k. unfold generate_pepper, token_urlsafe.
    rewrite (proj1 (token_of_bytes _ (token_bytes_bytes random k))),
      token_bytes_length. reflexivity. }
  split; [apply H|]. rewrite H. reflexivity.
Qed.


Lemma generate_pepper_chars (random : nat -> N) (n : nat) :
  Forall (fun c => is_urlsafe c = true) (generate_pepper random n).
Proof. apply token_of_bytes, token_bytes_bytes. Qed.

Lemma urlsafe_is_plain (c : N) :
  is_urlsafe c = true -> isspace c = false /\ c <> LF /\ c <> CR /\ c <> b64_pad.
Proof.
  unfold is_urlsafe, isspace, LF, CR, b64_pad. lia.
Qed.

(** X13. A generated pepper is made of letters, digits, [-] and [_]
    only: it has no white space, no line feed, no carriage return and no
    padding character [=], whatever the random bytes. *)
Theorem generate_pepper_is_urlsafe (random : nat -> N) (n : nat) :
  Forall (fun c => is_urlsafe c = true /\ isspace c = false
                   /\ c <> LF /\ c <> CR /\ c <> b64_pad)
         (generate_pepper random n).
Proof.
  eapply Forall_impl; [apply generate_pepper_chars|].
  intros c Hc. split; [exact Hc|]. apply urlsafe_is_plain. exact Hc.
Qed.






(** X14. Provisioning the same pepper again changes nothing: if no
    operation fails, the pepper has no line feed and no carriage return,
    and the first line kept of the file (if any) starts with a character
    that is not white space, then a second [create_env_file] with that
    pepper returns [True] and leaves the world exactly as the first one
    left it. *)
Theorem reprovisioning_is_idempotent (pepper env_path : str) (w : World) :
  no_faults w ->
  LF ∉ pepper -> CR ∉ pepper ->
  starts_flush (kept_lines (existing_content env_path w)) ->
  create_env_file pepper env_path (snd (create_env_file pepper env_path w))
  = (Returns true, snd (create_env_file pepper env_path w)).
Proof.
  intros Hok Hlf Hcr Hflush.
  rewrite (create_env_file_run pepper env_path w Hok). cbn [snd].
  set (text := rewritten pepper (existing_content env_path w)).
  assert (Hok' : no_faults (with_file env_path text w)) by exact Hok.
  rewrite (create_env_file_run pepper env_path _ Hok'). f_equal.
  assert (Hread : existing_content env_path (with_file env_path text w) = text).
  { unfold existing_content, with_file. cbn [fs]. rewrite lookup_insert_eq.
    apply universal_newlines_id. unfold text, rewritten.
    rewrite join_snoc, <- app_assoc.
    apply (no_CR_in_lines _ (py "APP_PEPPER=" ++ pepper)).
    - apply Forall_forall. intros l Hl Hc.
      exact (existing_content_no_CR env_path w (kept_lines_sub _ l CR Hl Hc)).
    - intros H. apply elem_of_app in H as [H|H]; [|auto].
      assert (Hb : bool_decide (CR ∈ py "APP_PEPPER=") = false)
        by (vm_compute; reflexivity).
      apply bool_decide_eq_false in Hb. auto. }
  rewrite Hread.
  assert (Hfix : rewritten pepper text = text).
  { unfold text. unfold rewritten at 1.
    rewrite (rewritten_keeps pepper _ Hflush Hlf). reflexivity. }
  rewrite Hfix. unfold with_file. cbn [fs stdout fault partial].
  rewrite insert_insert_eq. reflexivity.
Qed.


Lemma reprovisioning_is_idempotent_witness :
  create_env_file (py "s3cret") SampleFiles.dotenv_path
    (snd (create_env_file (py "s3cret") SampleFiles.dotenv_path
            (SampleFiles.quiet
               {[ SampleFiles.dotenv_path := SampleFiles.two_settings ]})))
  = (Returns true,
     snd (create_env_file (py "s3cret") SampleFiles.dotenv_path
            (SampleFiles.quiet
               {[ SampleFiles.dotenv_path := SampleFiles.two_settings ]}))).
Proof.
  apply (reprovisioning_is_idempotent (py "s3cret") SampleFiles.dotenv_path
           (SampleFiles.quiet
              {[ SampleFiles.dotenv_path := SampleFiles.two_settings ]})).
  - intros op. reflexivity.
  - apply (bool_decide_unpack _). vm_compute. exact I.
  - apply (bool_decide_unpack _). vm_compute. exact I.
  - vm_compute. reflexivity.
Defined.

End GeneratePepperProps.
